(** * Record extractors for SAM, BAM, CRAM and FASTA files

    A shallow embedding of [deepchem/feat/bio_seq_featurizer.py].  The four
    featurizers iterate over a record source owned by an external library
    (pysam) and copy attributes into a table that is handed to [np.array].

    The external objects are modelled as explicit state: a record stream is
    its contents, a cursor, a closed flag and a chronological log of the
    operations performed on it.  Python code becomes a computation in a
    small state-and-exception monad over that state. *)

From Stdlib Require Import String ZArith Bool Lia PeanoNat List.
Import ListNotations.

Set Implicit Arguments.
Local Set Warnings "-register-all".

(** ** Python values stored in a feature row *)

(** A cell of a feature row: the Python objects the featurizers put in
    their lists.  [CArray] is a one-dimensional numpy array, [CDict] a
    dict in insertion order. *)
Inductive cell : Type :=
| CNone
| CStr (s : string)
| CInt (z : Z)
| CBool (b : bool)
| CTuple (l : list cell)
| CList (l : list cell)
| CArray (l : list cell)
| CDict (kv : list (string * cell)).

Definition row := list cell.

(** Attribute values as Python objects: [None] stays [None]. *)
Definition py_str (o : option string) : cell :=
  match o with
  | Some s => CStr s
  | None => CNone
  end.

Definition py_int (o : option Z) : cell :=
  match o with
  | Some z => CInt z
  | None => CNone
  end.

Definition py_cigar (c : list (Z * Z)) : cell :=
  CList (map (fun ol => CTuple [CInt (fst ol); CInt (snd ol)]) c).

(** [np.array(xs)] on a sequence of integers. *)
Definition np_array_1d (xs : list Z) : cell := CArray (map CInt xs).

(** ** The table returned by a featurizer *)

(** An object array as [np.array(rows, dtype="object")] builds it from a
    list of rows.  Every row the featurizers build holds a scalar (an
    integer or a string), so numpy never finds a third dimension: the
    shape is [(0,)] for the empty list, [(m, n)] for [m] rows of equal
    length [n] and [(m,)] for ragged rows. *)
Record ndarray : Type := { shape : list nat; data : list row }.

Definition np_array (rows : list row) : ndarray :=
  match rows with
  | [] => {| shape := [0]; data := [] |}
  | r :: rs =>
      if forallb (fun x => Nat.eqb (length x) (length r)) rs
      then {| shape := [length rows; length r]; data := rows |}
      else {| shape := [length rows]; data := rows |}
  end.

(** ** Exceptions and the monad *)

(** An exception raised by the external library. *)
Inductive exn : Type := LibraryError (msg : string).

(** How a computation ends.  [OutOfFuel] is an artefact of the bounded
    loops below and is proved unreachable. *)
Inductive outcome (A : Type) : Type :=
| Returned (a : A)
| Raised (e : exn)
| OutOfFuel.

Arguments Raised {A} e.
Arguments OutOfFuel {A}.

(** Computations over a handle of type [St]. *)
Definition M (St A : Type) : Type := St -> outcome A * St.

Definition ret {St A} (a : A) : M St A := fun s => (Returned a, s).

Definition bind {St A B} (m : M St A) (k : A -> M St B) : M St B :=
  fun s =>
    match m s with
    | (Returned a, s') => k a s'
    | (Raised e, s') => (Raised e, s')
    | (OutOfFuel, s') => (OutOfFuel, s')
    end.

Definition out_of_fuel {St A} : M St A := fun s => (OutOfFuel, s).

Declare Scope py_scope.
Delimit Scope py_scope with py.
Notation "x <- m ;; k" := (bind m (fun x => k))
  (at level 61, m at next level, right associativity) : py_scope.
Notation "m ;;; k" := (bind m (fun _ => k))
  (at level 61, right associativity) : py_scope.

(** A [with] block: the exit action runs on every way out of the body. *)
Definition with_block {St A} (exit : St -> St) (body : M St A) : M St A :=
  fun s => let (r, s') := body s in (r, exit s').

(** ** Alignment records and the record stream (pysam.AlignmentFile) *)

Record AlignedSegment : Type := {
  query_name : option string;
  query_sequence : option string;
  query_length : Z;
  reference_name : option string;
  reference_start : Z;
  cigar : list (Z * Z);
  mapping_quality : Z;
  is_reverse : bool;
  query_qualities : list Z
}.

Record PileupRead : Type := {
  alignment_query_sequence : option string;
  query_position : option Z;
  is_del : bool;
  is_refskip : bool;
  indel : Z
}.

Record PileupColumn : Type := {
  pc_reference_name : string;
  reference_pos : Z;
  nsegments : Z;
  pileups : list PileupRead
}.

(** What the iterator finds at one position of the file: a record, or
    something the library cannot decode. *)
Inductive item (A : Type) : Type :=
| Good (a : A)
| Bad (e : exn).

Arguments Bad {A} e.

(** Operations performed on a stream, in the order they happened. *)
Inductive op : Type :=
| OpTell
| OpSeek (p : nat)
| OpPileup
| OpNext
| OpClose.

(** The state of an [AlignmentFile].  [pos] is the index of the record
    the next read returns; [pileup_leaves_at] is where a pileup pass
    leaves the cursor (the pass shares the file handle). *)
Record stream : Type := {
  items : list (item AlignedSegment);
  pos : nat;
  closed : bool;
  pileup_columns_of : list PileupColumn;
  pileup_leaves_at : nat;
  log : list op
}.

Definition logged (o : op) (s : stream) : stream :=
  {| items := items s; pos := pos s; closed := closed s;
     pileup_columns_of := pileup_columns_of s;
     pileup_leaves_at := pileup_leaves_at s;
     log := log s ++ [o] |}.

Definition at_pos (p : nat) (s : stream) : stream :=
  {| items := items s; pos := p; closed := closed s;
     pileup_columns_of := pileup_columns_of s;
     pileup_leaves_at := pileup_leaves_at s;
     log := log s |}.

Definition shut (s : stream) : stream :=
  {| items := items s; pos := pos s; closed := true;
     pileup_columns_of := pileup_columns_of s;
     pileup_leaves_at := pileup_leaves_at s;
     log := log s |}.

(** [datapoint.tell()] *)
Definition tell : M stream nat :=
  fun s => (Returned (pos s), logged OpTell s).

(** [datapoint.seek(p)] *)
Definition seek (p : nat) : M stream unit :=
  fun s => (Returned tt, logged (OpSeek p) (at_pos p s)).

(** [datapoint.pileup()], iterated to its end. *)
Definition pileup : M stream (list PileupColumn) :=
  fun s => (Returned (pileup_columns_of s),
            logged OpPileup (at_pos (pileup_leaves_at s) s)).

(** One step of [for record in datapoint]: [None] is the end of the
    stream (StopIteration). *)
Definition next : M stream (option AlignedSegment) :=
  fun s =>
    match nth_error (items s) (pos s) with
    | None => (Returned None, logged OpNext s)
    | Some (Good r) => (Returned (Some r), logged OpNext (at_pos (S (pos s)) s))
    | Some (Bad e) => (Raised e, logged OpNext s)
    end.

(** [datapoint.close()] *)
Definition close : M stream unit :=
  fun s => (Returned tt, logged OpClose (shut s)).

(** [self.max_records is not None and record_count >= self.max_records] *)
Definition cap_reached (max_records : option Z) (record_count : Z) : bool :=
  match max_records with
  | None => false
  | Some m => (m <=? record_count)%Z
  end.

(** A loop over a stream reads at most every record once and then sees
    the end, so this many iterations always suffice. *)
Definition loop_fuel (s : stream) : nat := S (length (items s)).

Local Open Scope py_scope.

(** ** SAMFeaturizer *)
Module SAMFeaturizer.

Definition feature_vector (record : AlignedSegment) : row :=
  [ py_str (query_name record);
    py_str (query_sequence record);
    CInt (query_length record);
    py_str (reference_name record);
    CInt (reference_start record);
    py_cigar (cigar record);
    CInt (mapping_quality record) ].

(** The [for] loop of [_featurize], with its two locals. *)
Fixpoint loop (fuel : nat) (max_records : option Z)
         (features : list row) (record_count : Z) : M stream (list row) :=
  match fuel with
  | O => out_of_fuel
  | S fuel' =>
      nxt <- next ;;
      match nxt with
      | None => ret features
      | Some record =>
          let features := features ++ [feature_vector record] in
          let record_count := (record_count + 1)%Z in
          if cap_reached max_records record_count
          then ret features
          else loop fuel' max_records features record_count
      end
  end.

Definition _featurize (max_records : option Z) : M stream ndarray :=
  fun datapoint =>
    (features <- loop (loop_fuel datapoint) max_records [] 0%Z ;;
     close ;;;
     ret (np_array features)) datapoint.

End SAMFeaturizer.

(** ** BAMFeaturizer *)
Module BAMFeaturizer.

Definition pileup_read (pileupread : PileupRead) : cell :=
  CList [ py_str (alignment_query_sequence pileupread);
          py_int (query_position pileupread);
          CBool (is_del pileupread);
          CBool (is_refskip pileupread);
          CInt (indel pileupread) ].

Definition pileup_info (pileupcolumn : PileupColumn) : cell :=
  CDict [ ("name"%string, CStr (pc_reference_name pileupcolumn));
          ("pos"%string, CInt (reference_pos pileupcolumn));
          ("depth"%string, CInt (nsegments pileupcolumn));
          ("reads"%string, CList (map pileup_read (pileups pileupcolumn))) ].

(** Lines 195-219: remember the position, build the pileup list when
    asked to, go back to the remembered position. *)
Definition prepass (get_pileup : bool) : M stream (list cell) :=
  initial_position <- tell ;;
  pileup_columns <-
    (if get_pileup
     then
       columns <- pileup ;;
       ret (fold_left (fun acc pileupcolumn => acc ++ [pileup_info pileupcolumn])
                      columns [])
     else ret []) ;;
  seek initial_position ;;;
  ret pileup_columns.

Definition feature_vector (get_pileup : bool) (pileup_columns : list cell)
           (record : AlignedSegment) : row :=
  let feature_vector :=
    [ py_str (query_name record);
      py_str (query_sequence record);
      CInt (query_length record);
      py_str (reference_name record);
      CInt (reference_start record);
      py_cigar (cigar record);
      CInt (mapping_quality record);
      CBool (is_reverse record);
      np_array_1d (query_qualities record) ] in
  if get_pileup
  then feature_vector ++ [CList pileup_columns]
  else feature_vector.

(** The main [for] loop.  [pileup_columns] is never changed after the
    pre-pass, so the one list every row refers to is a plain value. *)
Fixpoint loop (fuel : nat) (max_records : option Z) (get_pileup : bool)
         (pileup_columns : list cell)
         (features : list row) (record_count : Z) : M stream (list row) :=
  match fuel with
  | O => out_of_fuel
  | S fuel' =>
      nxt <- next ;;
      match nxt with
      | None => ret features
      | Some record =>
          initial_position <- tell ;;
          let features :=
            features ++ [feature_vector get_pileup pileup_columns record] in
          let record_count := (record_count + 1)%Z in
          seek initial_position ;;;
          if cap_reached max_records record_count
          then ret features
          else loop fuel' max_records get_pileup pileup_columns
                    features record_count
      end
  end.

Definition _featurize (max_records : option Z) (get_pileup : bool)
  : M stream ndarray :=
  fun datapoint =>
    (pileup_columns <- prepass get_pileup ;;
     features <- loop (loop_fuel datapoint) max_records get_pileup
                      pileup_columns [] 0%Z ;;
     close ;;;
     ret (np_array features)) datapoint.

End BAMFeaturizer.

(** ** CRAMFeaturizer *)
Module CRAMFeaturizer.

Definition feature_vector (record : AlignedSegment) : row :=
  [ py_str (query_name record);
    py_str (query_sequence record);
    CInt (query_length record);
    py_str (reference_name record);
    CInt (reference_start record);
    py_cigar (cigar record);
    CInt (mapping_quality record) ].

Fixpoint loop (fuel : nat) (max_records : option Z)
         (features : list row) (record_count : Z) : M stream (list row) :=
  match fuel with
  | O => out_of_fuel
  | S fuel' =>
      nxt <- next ;;
      match nxt with
      | None => ret features
      | Some record =>
          let features := features ++ [feature_vector record] in
          let record_count := (record_count + 1)%Z in
          if cap_reached max_records record_count
          then ret features
          else loop fuel' max_records features record_count
      end
  end.

Definition _featurize (max_records : option Z) : M stream ndarray :=
  fun datapoint =>
    (features <- loop (loop_fuel datapoint) max_records [] 0%Z ;;
     close ;;;
     ret (np_array features)) datapoint.

End CRAMFeaturizer.

(** ** FASTAFeaturizer *)

(** An entry of a FASTA file as [pysam.FastxFile] yields it. *)
Record FastxRecord : Type := { name : string; sequence : string }.

(** The handle [pysam.FastxFile(path)] returns. *)
Record FastxFile : Type := {
  fx_entries : list (item FastxRecord);
  fx_pos : nat;
  fx_closed : bool
}.

(** The files the call can see: what a path holds, if anything. *)
Definition filesystem := string -> option (list (item FastxRecord)).

(** [pysam.FastxFile(path)]: a missing file raises. *)
Definition FastxFile_open (fs : filesystem) (path : string)
  : outcome FastxFile :=
  match fs path with
  | Some entries =>
      Returned {| fx_entries := entries; fx_pos := 0; fx_closed := false |}
  | None => Raised (LibraryError "file not found")
  end.

(** One step of [for entry in fasta]. *)
Definition fx_next : M FastxFile (option FastxRecord) :=
  fun h =>
    match nth_error (fx_entries h) (fx_pos h) with
    | None => (Returned None, h)
    | Some (Good e) =>
        (Returned (Some e),
         {| fx_entries := fx_entries h; fx_pos := S (fx_pos h);
            fx_closed := fx_closed h |})
    | Some (Bad e) => (Raised e, h)
    end.

(** [FastxFile.__exit__]: close the file. *)
Definition fx_exit (h : FastxFile) : FastxFile :=
  {| fx_entries := fx_entries h; fx_pos := fx_pos h; fx_closed := true |}.

Module FASTAFeaturizer.

Fixpoint loop (fuel : nat) (data : list row) : M FastxFile (list row) :=
  match fuel with
  | O => out_of_fuel
  | S fuel' =>
      nxt <- fx_next ;;
      match nxt with
      | None => ret data
      | Some entry =>
          loop fuel' (data ++ [[CStr (name entry); CStr (sequence entry)]])
      end
  end.

(** The result of the call and, when the file could be opened, the handle
    as the call leaves it. *)
Definition _featurize (fs : filesystem) (datapoint : string)
  : outcome ndarray * option FastxFile :=
  match FastxFile_open fs datapoint with
  | Returned fasta =>
      let (r, fasta') :=
        (data <- with_block fx_exit
                   (loop (S (length (fx_entries fasta))) []) ;;
         ret (np_array data)) fasta in
      (r, Some fasta')
  | Raised e => (Raised e, None)
  | OutOfFuel => (OutOfFuel, None)
  end.

End FASTAFeaturizer.

(** ** Summary of a pass over the items of a file *)

(** Why a loop over the items stopped. *)
Inductive ending : Type :=
| Exhausted
| Capped
| Failed (e : exn).

(** The records a capped loop takes from the items in front of it, and
    how it stops: used to state what the loops above compute. *)
Fixpoint scan {A} (max_records : option Z) (record_count : Z)
         (l : list (item A)) : list A * ending :=
  match l with
  | [] => ([], Exhausted)
  | Bad e :: _ => ([], Failed e)
  | Good r :: tl =>
      if cap_reached max_records (record_count + 1)
      then ([r], Capped)
      else let (rs, e) := scan max_records (record_count + 1) tl in
           (r :: rs, e)
  end.

Definition result_of {A} (e : ending) (v : A) : outcome A :=
  match e with
  | Failed x => Raised x
  | _ => Returned v
  end.

(** The read that found the end of the stream or a bad item. *)
Definition last_read (e : ending) : list op :=
  match e with
  | Capped => []
  | _ => [OpNext]
  end.

(** The close that follows a loop which did not fail. *)
Definition closing (e : ending) : list op :=
  match e with
  | Failed _ => []
  | _ => [OpClose]
  end.

(** The stream [k] records further, with [tr] added to its log. *)
Definition moved (s : stream) (k : nat) (tr : list op) : stream :=
  {| items := items s; pos := pos s + k; closed := closed s;
     pileup_columns_of := pileup_columns_of s;
     pileup_leaves_at := pileup_leaves_at s;
     log := log s ++ tr |}.

(** The log of [n] iterations of the BAM loop from position [p]. *)
Fixpoint bam_reads (p n : nat) : list op :=
  match n with
  | O => []
  | S n' => [OpNext; OpTell; OpSeek (S p)] ++ bam_reads (S p) n'
  end.

(** The pileup list the pre-pass builds. *)
Definition pileup_list (get_pileup : bool) (s : stream) : list cell :=
  if get_pileup then map BAMFeaturizer.pileup_info (pileup_columns_of s)
  else [].

(** The log of the pre-pass. *)
Definition prepass_log (get_pileup : bool) (s : stream) : list op :=
  if get_pileup then [OpTell; OpPileup; OpSeek (pos s)]
  else [OpTell; OpSeek (pos s)].

(** The FASTA handle [k] entries further. *)
Definition fx_moved (h : FastxFile) (k : nat) : FastxFile :=
  {| fx_entries := fx_entries h; fx_pos := fx_pos h + k;
     fx_closed := fx_closed h |}.

(** The items still in front of the cursor. *)
Definition remaining (s : stream) : list (item AlignedSegment) :=
  skipn (pos s) (items s).

Definition is_pileup (o : op) : bool :=
  match o with
  | OpPileup => true
  | _ => false
  end.

Definition count_pileup (l : list op) : nat := length (filter is_pileup l).

(** ** Concrete inputs *)

Definition read1 : AlignedSegment :=
  {| query_name := Some "r001"%string; query_sequence := Some "ACGT"%string;
     query_length := 4; reference_name := Some "chr1"%string;
     reference_start := 6; cigar := [(0, 4)]%Z; mapping_quality := 30;
     is_reverse := false; query_qualities := [30; 31; 32; 33]%Z |}.

Definition read2 : AlignedSegment :=
  {| query_name := None; query_sequence := None;
     query_length := 0; reference_name := None;
     reference_start := (-1); cigar := []; mapping_quality := 255;
     is_reverse := true; query_qualities := [] |}.

Definition read3 : AlignedSegment :=
  {| query_name := Some "r003"%string; query_sequence := Some "TT"%string;
     query_length := 2; reference_name := Some "chr2"%string;
     reference_start := 0; cigar := [(0, 1); (1, 1)]%Z; mapping_quality := 7;
     is_reverse := false; query_qualities := [12; 13]%Z |}.

Definition column1 : PileupColumn :=
  {| pc_reference_name := "chr1"%string; reference_pos := 6; nsegments := 1;
     pileups := [ {| alignment_query_sequence := Some "ACGT"%string;
                     query_position := Some 0%Z; is_del := false;
                     is_refskip := false; indel := 0 |} ] |}.

(** A freshly opened file holding [l]; a pileup pass leaves the cursor at
    the end of the file. *)
Definition opened (l : list (item AlignedSegment)) : stream :=
  {| items := l; pos := 0; closed := false;
     pileup_columns_of := [column1]; pileup_leaves_at := length l;
     log := [] |}.

Definition decode_error : exn := LibraryError "truncated file".

Definition one_fasta_file (entries : list (item FastxRecord)) : filesystem :=
  fun path => if String.eqb path "example.fasta" then Some entries else None.

(** ** Featurizer objects *)

(** Truth value of an [Optional[bool]] in an [if]: [None] counts as
    false. *)
Definition truthy (o : option bool) : bool :=
  match o with
  | Some b => b
  | None => false
  end.

(** A [SAMFeaturizer] instance: the attribute [__init__] stores, and the
    method call [self._featurize(datapoint)]. *)
Module SAMObject.

Record self : Type := { max_records : option Z }.

Definition __init__ (max_records : option Z) : self :=
  {| max_records := max_records |}.

(** [SAMFeaturizer()]: the parameter keeps its default [None]. *)
Definition default : self := __init__ None.

Definition call (this : self) : M stream ndarray :=
  SAMFeaturizer._featurize (max_records this).

End SAMObject.

Module BAMObject.

Record self : Type := { max_records : option Z; get_pileup : option bool }.

Definition __init__ (max_records : option Z) (get_pileup : option bool)
  : self :=
  {| max_records := max_records; get_pileup := get_pileup |}.

(** [BAMFeaturizer()]: [max_records=None], [get_pileup=False]. *)
Definition default : self := __init__ None (Some false).

Definition call (this : self) : M stream ndarray :=
  BAMFeaturizer._featurize (max_records this) (truthy (get_pileup this)).

End BAMObject.

Module CRAMObject.

Record self : Type := { max_records : option Z }.

Definition __init__ (max_records : option Z) : self :=
  {| max_records := max_records |}.

(** [CRAMFeaturizer()]: the parameter keeps its default [None]. *)
Definition default : self := __init__ None.

Definition call (this : self) : M stream ndarray :=
  CRAMFeaturizer._featurize (max_records this).

End CRAMObject.

(** A table is either the empty one-dimensional array or has [columns]
    columns. *)
Definition table_of_width (columns : nat) (table : ndarray) : Prop :=
  (data table = [] /\ shape table = [0])
  \/ (data table <> [] /\ shape table = [length (data table); columns]).

(** [large] returned a table only if [small] did, and then the table of
    [large] is the table of [small] with rows added at the end. *)
Definition extends (small large : outcome ndarray) : Prop :=
  match large with
  | Returned b =>
      exists a extra, small = Returned a /\ data b = data a ++ extra
  | _ => True
  end.

(** * Properties *)

(** ** The monad and the stream *)

Lemma data_np_array (rows : list row) : data (np_array rows) = rows.
Proof.
  destruct rows as [|r rs]; [reflexivity|].
  unfold np_array.
  match goal with |- context [if ?b then _ else _] => destruct b end;
    reflexivity.
Qed.

Lemma skipn_nth_error_None {A} (l : list A) (p : nat) :
  nth_error l p = None -> skipn p l = [].
Proof.
  intros H. apply skipn_all2. now apply nth_error_None.
Qed.

Lemma skipn_nth_error_Some {A} (l : list A) (p : nat) (x : A) :
  nth_error l p = Some x -> skipn p l = x :: skipn (S p) l.
Proof.
  revert p; induction l as [|a l IH]; intros [|p] H; simpl in *;
    try discriminate.
  - now inversion H.
  - now apply IH.
Qed.

Lemma moved_0 (s : stream) (o : op) : logged o s = moved s 0 [o].
Proof. unfold logged, moved. now rewrite Nat.add_0_r. Qed.

Lemma moved_next (s : stream) (k : nat) (tr : list op) :
  moved (logged OpNext (at_pos (S (pos s)) s)) k tr
  = moved s (S k) (OpNext :: tr).
Proof.
  unfold moved, logged, at_pos; simpl.
  rewrite <- app_assoc. simpl. f_equal. lia.
Qed.

(** ** What the SAM loop computes *)

Lemma sam_loop_scan (max_records : option Z) :
  forall fuel features record_count s,
    length (items s) - pos s < fuel ->
    SAMFeaturizer.loop fuel max_records features record_count s
    = let (rs, e) := scan max_records record_count (remaining s) in
      (result_of e (features ++ map SAMFeaturizer.feature_vector rs),
       moved s (length rs) (repeat OpNext (length rs) ++ last_read e)).
Proof.
  induction fuel as [|fuel IH]; intros features record_count s Hfuel; [lia|].
  unfold remaining. cbn [SAMFeaturizer.loop]. unfold bind at 1, next.
  destruct (nth_error (items s) (pos s)) as [[r|e]|] eqn:Hn.
  - rewrite (skipn_nth_error_Some _ _ Hn). cbn [scan].
    destruct (cap_reached max_records (record_count + 1)) eqn:Hcap.
    + unfold ret. cbn. f_equal.
      unfold moved, logged, at_pos; simpl. f_equal. lia.
    + assert (Hlt : pos s < length (items s))
        by (apply nth_error_Some; congruence).
      rewrite IH by (simpl; lia).
      unfold remaining. simpl pos. simpl items.
      destruct (scan max_records (record_count + 1) (skipn (S (pos s)) (items s)))
        as [rs e].
      rewrite moved_next. cbn [map length repeat].
      rewrite <- app_assoc. reflexivity.
  - rewrite (skipn_nth_error_Some _ _ Hn). cbn. f_equal. apply moved_0.
  - rewrite (skipn_nth_error_None _ _ Hn). cbn. unfold ret.
    rewrite app_nil_r. f_equal. apply moved_0.
Qed.

Lemma sam_featurize_scan (max_records : option Z) (s : stream) :
  SAMFeaturizer._featurize max_records s
  = let (rs, e) := scan max_records 0 (remaining s) in
    let s' := moved s (length rs) (repeat OpNext (length rs) ++ last_read e) in
    match e with
    | Failed x => (Raised x, s')
    | _ => (Returned (np_array (map SAMFeaturizer.feature_vector rs)),
            logged OpClose (shut s'))
    end.
Proof.
  unfold SAMFeaturizer._featurize, bind.
  rewrite sam_loop_scan by (unfold loop_fuel; lia).
  destruct (scan max_records 0 (remaining s)) as [rs [| |x]]; reflexivity.
Qed.

(** ** The CRAM loop is the SAM loop *)

Lemma cram_loop_sam_loop (max_records : option Z) :
  forall fuel features record_count s,
    CRAMFeaturizer.loop fuel max_records features record_count s
    = SAMFeaturizer.loop fuel max_records features record_count s.
Proof.
  induction fuel as [|fuel IH]; intros features record_count s;
    [reflexivity|].
  cbn [CRAMFeaturizer.loop SAMFeaturizer.loop]. unfold bind.
  destruct (next s) as [[[record|]|e|] s1].
  - change (CRAMFeaturizer.feature_vector record)
      with (SAMFeaturizer.feature_vector record).
    destruct (cap_reached max_records (record_count + 1)); [reflexivity|].
    apply IH.
  - reflexivity.
  - reflexivity.
  - reflexivity.
Qed.

Lemma cram_featurize_sam_featurize (max_records : option Z) (s : stream) :
  CRAMFeaturizer._featurize max_records s
  = SAMFeaturizer._featurize max_records s.
Proof.
  unfold CRAMFeaturizer._featurize, SAMFeaturizer._featurize, bind.
  now rewrite cram_loop_sam_loop.
Qed.

(** ** What the BAM extractor computes *)

Lemma pileup_fold (columns : list PileupColumn) :
  fold_left (fun acc pileupcolumn => acc ++ [BAMFeaturizer.pileup_info pileupcolumn])
            columns []
  = map BAMFeaturizer.pileup_info columns.
Proof.
  enough (H : forall acc,
             fold_left (fun acc pc => acc ++ [BAMFeaturizer.pileup_info pc])
                       columns acc
             = acc ++ map BAMFeaturizer.pileup_info columns)
    by apply (H []).
  induction columns as [|c columns IH]; intros acc; simpl.
  - now rewrite app_nil_r.
  - rewrite IH, <- app_assoc. reflexivity.
Qed.

Lemma bam_prepass_moved (get_pileup : bool) (s : stream) :
  BAMFeaturizer.prepass get_pileup s
  = (Returned (pileup_list get_pileup s),
     moved s 0 (prepass_log get_pileup s)).
Proof.
  unfold BAMFeaturizer.prepass, bind, tell, seek, pileup, ret, pileup_list,
    prepass_log.
  destruct get_pileup; cbn; rewrite ?pileup_fold; f_equal;
    unfold moved, logged, at_pos; simpl; rewrite <- ?app_assoc; simpl;
    f_equal; lia.
Qed.

Lemma bam_loop_scan (max_records : option Z) (get_pileup : bool)
      (pileup_columns : list cell) :
  forall fuel features record_count s,
    length (items s) - pos s < fuel ->
    BAMFeaturizer.loop fuel max_records get_pileup pileup_columns
                       features record_count s
    = let (rs, e) := scan max_records record_count (remaining s) in
      (result_of e
         (features
          ++ map (BAMFeaturizer.feature_vector get_pileup pileup_columns) rs),
       moved s (length rs) (bam_reads (pos s) (length rs) ++ last_read e)).
Proof.
  induction fuel as [|fuel IH]; intros features record_count s Hfuel; [lia|].
  unfold remaining. cbn [BAMFeaturizer.loop]. unfold bind at 1, next.
  destruct (nth_error (items s) (pos s)) as [[r|e]|] eqn:Hn.
  - rewrite (skipn_nth_error_Some _ _ Hn). cbn [scan].
    assert (Hlt : pos s < length (items s))
      by (apply nth_error_Some; congruence).
    unfold bind, tell, seek.
    destruct (cap_reached max_records (record_count + 1)) eqn:Hcap.
    + unfold ret. cbn. f_equal.
      unfold moved, logged, at_pos; simpl. rewrite <- !app_assoc. simpl.
      f_equal. lia.
    + rewrite IH by (simpl; lia).
      unfold remaining. simpl pos. simpl items.
      destruct (scan max_records (record_count + 1) (skipn (S (pos s)) (items s)))
        as [rs e].
      cbn [map length bam_reads]. rewrite <- !app_assoc. f_equal.
      unfold moved, logged, at_pos; simpl. rewrite <- !app_assoc. simpl.
      f_equal. lia.
  - rewrite (skipn_nth_error_Some _ _ Hn). cbn. f_equal. apply moved_0.
  - rewrite (skipn_nth_error_None _ _ Hn). cbn. unfold ret.
    rewrite app_nil_r. f_equal. apply moved_0.
Qed.

Lemma bam_featurize_scan (max_records : option Z) (get_pileup : bool)
      (s : stream) :
  BAMFeaturizer._featurize max_records get_pileup s
  = let (rs, e) := scan max_records 0 (remaining s) in
    let s' := moved s (length rs)
                    (prepass_log get_pileup s
                     ++ bam_reads (pos s) (length rs) ++ last_read e) in
    match e with
    | Failed x => (Raised x, s')
    | _ => (Returned
              (np_array
                 (map (BAMFeaturizer.feature_vector
                         get_pileup (pileup_list get_pileup s)) rs)),
            logged OpClose (shut s'))
    end.
Proof.
  unfold BAMFeaturizer._featurize. unfold bind at 1.
  rewrite bam_prepass_moved. unfold bind at 1.
  rewrite bam_loop_scan by (unfold loop_fuel; simpl; lia).
  replace (remaining (moved s 0 (prepass_log get_pileup s)))
    with (remaining s)
    by (unfold remaining; simpl; now rewrite Nat.add_0_r).
  simpl pos. rewrite Nat.add_0_r.
  destruct (scan max_records 0 (remaining s)) as [rs e].
  assert (Hs : moved (moved s 0 (prepass_log get_pileup s)) (length rs)
                     (bam_reads (pos s) (length rs) ++ last_read e)
               = moved s (length rs)
                       (prepass_log get_pileup s
                        ++ bam_reads (pos s) (length rs) ++ last_read e)).
  { unfold moved; simpl. rewrite <- app_assoc. f_equal. lia. }
  rewrite Hs.
  destruct e; reflexivity.
Qed.

(** ** What the FASTA extractor computes *)

Lemma fasta_loop_scan :
  forall fuel data h c,
    length (fx_entries h) - fx_pos h < fuel ->
    FASTAFeaturizer.loop fuel data h
    = let (es, e) := scan None c (skipn (fx_pos h) (fx_entries h)) in
      (result_of e
         (data ++ map (fun entry => [CStr (name entry); CStr (sequence entry)]) es),
       fx_moved h (length es)).
Proof.
  induction fuel as [|fuel IH]; intros data h c Hfuel; [lia|].
  cbn [FASTAFeaturizer.loop]. unfold bind at 1, fx_next.
  destruct (nth_error (fx_entries h) (fx_pos h)) as [[r|e]|] eqn:Hn.
  - rewrite (skipn_nth_error_Some _ _ Hn). cbn [scan cap_reached].
    assert (Hlt : fx_pos h < length (fx_entries h))
      by (apply nth_error_Some; congruence).
    rewrite (IH _ _ (c + 1)%Z) by (simpl; lia).
    simpl fx_pos. simpl fx_entries.
    destruct (scan None (c + 1) (skipn (S (fx_pos h)) (fx_entries h)))
      as [es e].
    cbn [map length]. rewrite <- app_assoc. f_equal.
    unfold fx_moved; simpl. f_equal. lia.
  - rewrite (skipn_nth_error_Some _ _ Hn). cbn. f_equal.
    unfold fx_moved. destruct h; simpl. now rewrite Nat.add_0_r.
  - rewrite (skipn_nth_error_None _ _ Hn). cbn. unfold ret.
    rewrite app_nil_r. f_equal.
    unfold fx_moved. destruct h; simpl. now rewrite Nat.add_0_r.
Qed.

Lemma fasta_featurize_scan (fs : filesystem) (path : string) :
  FASTAFeaturizer._featurize fs path
  = match fs path with
    | None => (Raised (LibraryError "file not found"), None)
    | Some entries =>
        let (es, e) := scan None 0 entries in
        (result_of e
           (np_array
              (map (fun entry => [CStr (name entry); CStr (sequence entry)]) es)),
         Some {| fx_entries := entries; fx_pos := length es;
                 fx_closed := true |})
    end.
Proof.
  unfold FASTAFeaturizer._featurize, FastxFile_open.
  destruct (fs path) as [entries|]; [|reflexivity].
  unfold bind, with_block.
  rewrite (@fasta_loop_scan _ _ _ 0%Z) by (simpl; lia).
  simpl fx_pos. simpl fx_entries. simpl skipn.
  destruct (scan None 0 entries) as [es [| |x]]; reflexivity.
Qed.

(** ** Facts about [scan] *)

(** The records taken are a prefix of the items, in their order. *)
Lemma scan_prefix {A} (max_records : option Z) :
  forall (l : list (item A)) c rs e,
    scan max_records c l = (rs, e) ->
    exists rest, l = map (@Good A) rs ++ rest.
Proof.
  induction l as [|[r|x] l IH]; intros c rs e H; cbn [scan] in H.
  - inversion H. now exists [].
  - destruct (cap_reached max_records (c + 1)).
    + inversion H. now exists l.
    + destruct (scan max_records (c + 1) l) as [rs' e'] eqn:Hs.
      inversion H; subst.
      destruct (IH _ _ _ Hs) as [rest ->].
      now exists rest.
  - inversion H. now exists (Bad x :: l).
Qed.

(** Without a cap, a file of good items is taken whole. *)
Lemma scan_uncapped {A} (rs : list A) (c : Z) :
  scan None c (map (@Good A) rs) = (rs, Exhausted).
Proof.
  revert c; induction rs as [|r rs IH]; intros c; [reflexivity|].
  cbn [map scan cap_reached]. now rewrite IH.
Qed.

(** A cap of zero or less stops after the first record. *)
Lemma scan_cap_not_positive {A} (m : Z) (r : A) (l : list (item A)) :
  (m <= 0)%Z -> scan (Some m) 0 (Good r :: l) = ([r], Capped).
Proof.
  intros Hm. cbn [scan cap_reached].
  destruct (Z.leb_spec m (0 + 1)); [reflexivity|lia].
Qed.

(** Nothing in front of the cursor: nothing is taken. *)
Lemma remaining_nil (s : stream) :
  length (items s) <= pos s -> remaining s = [].
Proof. intros H. unfold remaining. now apply skipn_all2. Qed.

(** The number of records taken under a cap. *)
Lemma scan_length {A} (m : Z) :
  forall (l : list (item A)) c rs e,
    scan (Some m) c l = (rs, e) ->
    (c + Z.of_nat (length rs) <= Z.max m (c + 1))%Z.
Proof.
  induction l as [|[r|x] l IH]; intros c rs e H; cbn [scan cap_reached] in H.
  - inversion H. simpl. lia.
  - destruct (Z.leb_spec m (c + 1)).
    + inversion H. simpl. lia.
    + destruct (scan (Some m) (c + 1) l) as [rs' e'] eqn:Hs.
      inversion H; subst.
      apply IH in Hs. simpl length. lia.
  - inversion H. simpl. lia.
Qed.

Lemma count_pileup_app (l1 l2 : list op) :
  count_pileup (l1 ++ l2) = count_pileup l1 + count_pileup l2.
Proof. unfold count_pileup. now rewrite filter_app, length_app. Qed.

Lemma count_pileup_bam_reads (p n : nat) : count_pileup (bam_reads p n) = 0.
Proof.
  revert p; induction n as [|n IH]; intros p; [reflexivity|].
  cbn [bam_reads]. rewrite count_pileup_app, IH. reflexivity.
Qed.

Lemma count_pileup_last_read (e : ending) : count_pileup (last_read e) = 0.
Proof. destruct e; reflexivity. Qed.

Lemma count_pileup_closing (e : ending) : count_pileup (closing e) = 0.
Proof. destruct e; reflexivity. Qed.

(** The log of a whole BAM call. *)
Lemma bam_featurize_log (max_records : option Z) (get_pileup : bool)
      (s : stream) :
  log (snd (BAMFeaturizer._featurize max_records get_pileup s))
  = log s ++ prepass_log get_pileup s
    ++ bam_reads (pos s) (length (fst (scan max_records 0 (remaining s))))
    ++ last_read (snd (scan max_records 0 (remaining s)))
    ++ closing (snd (scan max_records 0 (remaining s))).
Proof.
  rewrite bam_featurize_scan.
  destruct (scan max_records 0 (remaining s)) as [rs [| |x]];
    cbn [fst snd log logged shut moved last_read closing];
    rewrite <- ?app_assoc, ?app_nil_r; reflexivity.
Qed.

(** ** The cap on the number of records *)

(** C1 (a defect of the code): with [max_records = 0] the extractors do
    not return an empty table.  On a stream of two records each of them
    reads the first record, puts its row in the table and only then
    compares the counter with the cap; the stream is closed afterwards. *)
Theorem max_records_zero_keeps_first_record :
  SAMFeaturizer._featurize (Some 0%Z) (opened [Good read1; Good read2])
  = (Returned {| shape := [1; 7];
                 data := [SAMFeaturizer.feature_vector read1] |},
     {| items := [Good read1; Good read2]; pos := 1; closed := true;
        pileup_columns_of := [column1]; pileup_leaves_at := 2;
        log := [OpNext; OpClose] |})
  /\ fst (BAMFeaturizer._featurize (Some 0%Z) false
            (opened [Good read1; Good read2]))
     = Returned {| shape := [1; 9];
                   data := [BAMFeaturizer.feature_vector false [] read1] |}
  /\ fst (CRAMFeaturizer._featurize (Some 0%Z)
            (opened [Good read1; Good read2]))
     = Returned {| shape := [1; 7];
                   data := [CRAMFeaturizer.feature_vector read1] |}.
Proof. repeat split. Qed.

(** C3 (a defect of the code): the table can hold more rows than
    [max_records].  With three records and [max_records = 0] the SAM and
    CRAM extractors return one row. *)
Theorem row_count_exceeds_zero_cap :
  exists sam cram,
    fst (SAMFeaturizer._featurize (Some 0%Z)
           (opened [Good read1; Good read2; Good read3])) = Returned sam
    /\ fst (CRAMFeaturizer._featurize (Some 0%Z)
              (opened [Good read1; Good read2; Good read3])) = Returned cram
    /\ length (data sam) = 1
    /\ length (data cram) = 1
    /\ ~ (Z.of_nat (length (data sam)) <= 0)%Z
    /\ ~ (Z.of_nat (length (data cram)) <= 0)%Z.
Proof.
  eexists. eexists.
  split; [reflexivity|]. split; [reflexivity|].
  cbn. repeat split; lia.
Qed.

(** From a cap of one on, the table of the SAM extractor never holds
    more rows than the cap. *)
Lemma sam_rows_at_most_positive_cap (m : Z) (s : stream) (arr : ndarray) :
  (1 <= m)%Z ->
  fst (SAMFeaturizer._featurize (Some m) s) = Returned arr ->
  (Z.of_nat (length (data arr)) <= m)%Z.
Proof.
  intros Hm. rewrite sam_featurize_scan.
  destruct (scan (Some m) 0 (remaining s)) as [rs e] eqn:Hs.
  apply scan_length in Hs.
  destruct e; cbn; intros H; inversion H;
    rewrite data_np_array, length_map; lia.
Qed.

(** Without a cap, a stream of good records gives one row per record. *)
Lemma sam_rows_all_when_uncapped (s : stream) (rs : list AlignedSegment) :
  remaining s = map (@Good _) rs ->
  fst (SAMFeaturizer._featurize None s)
  = Returned (np_array (map SAMFeaturizer.feature_vector rs)).
Proof.
  intros H. rewrite sam_featurize_scan, H, scan_uncapped. reflexivity.
Qed.

(** Five records and a cap of three: three rows, in record order, and
    the stream is closed. *)
Example five_records_cap_three :
  SAMFeaturizer._featurize (Some 3%Z)
    (opened [Good read1; Good read2; Good read3; Good read2; Good read1])
  = (Returned {| shape := [3; 7];
                 data := map SAMFeaturizer.feature_vector
                             [read1; read2; read3] |},
     {| items := [Good read1; Good read2; Good read3; Good read2; Good read1];
        pos := 3; closed := true;
        pileup_columns_of := [column1]; pileup_leaves_at := 5;
        log := [OpNext; OpNext; OpNext; OpClose] |}).
Proof. reflexivity. Qed.

(** C9: on a stream whose next item is a record, a cap of zero or less
    makes every extractor read that one record and return a table of
    exactly one row: the cap is compared only after the row is appended. *)
Theorem non_positive_cap_gives_one_row
        (m : Z) (get_pileup : bool) (s : stream) (r : AlignedSegment) :
  nth_error (items s) (pos s) = Some (Good r) ->
  (m <= 0)%Z ->
  SAMFeaturizer._featurize (Some m) s
  = (Returned {| shape := [1; 7];
                 data := [SAMFeaturizer.feature_vector r] |},
     logged OpClose (shut (moved s 1 [OpNext])))
  /\ CRAMFeaturizer._featurize (Some m) s
     = (Returned {| shape := [1; 7];
                    data := [CRAMFeaturizer.feature_vector r] |},
        logged OpClose (shut (moved s 1 [OpNext])))
  /\ BAMFeaturizer._featurize (Some m) get_pileup s
     = (Returned
          {| shape := [1; if get_pileup then 10 else 9];
             data := [BAMFeaturizer.feature_vector
                        get_pileup (pileup_list get_pileup s) r] |},
        logged OpClose
          (shut (moved s 1 (prepass_log get_pileup s
                            ++ [OpNext; OpTell; OpSeek (S (pos s))])))).
Proof.
  intros Hn Hm.
  assert (Hscan : scan (Some m) 0 (remaining s) = ([r], Capped)).
  { unfold remaining. rewrite (skipn_nth_error_Some _ _ Hn).
    now apply scan_cap_not_positive. }
  split; [|split].
  - rewrite sam_featurize_scan, Hscan. reflexivity.
  - transitivity (SAMFeaturizer._featurize (Some m) s);
      [apply cram_featurize_sam_featurize|].
    rewrite sam_featurize_scan, Hscan. reflexivity.
  - rewrite bam_featurize_scan, Hscan.
    destruct get_pileup; reflexivity.
Qed.

Lemma non_positive_cap_gives_one_row_witness :
  nth_error (items (opened [Good read1; Good read2])) 0 = Some (Good read1)
  /\ (-2 <= 0)%Z
  /\ SAMFeaturizer._featurize (Some (-2)%Z) (opened [Good read1; Good read2])
     = (Returned {| shape := [1; 7];
                    data := [SAMFeaturizer.feature_vector read1] |},
        logged OpClose (shut (moved (opened [Good read1; Good read2]) 1
                                    [OpNext])))
  /\ CRAMFeaturizer._featurize (Some (-2)%Z) (opened [Good read1; Good read2])
     = (Returned {| shape := [1; 7];
                    data := [CRAMFeaturizer.feature_vector read1] |},
        logged OpClose (shut (moved (opened [Good read1; Good read2]) 1
                                    [OpNext])))
  /\ BAMFeaturizer._featurize (Some (-2)%Z) true
       (opened [Good read1; Good read2])
     = (Returned
          {| shape := [1; 10];
             data := [BAMFeaturizer.feature_vector
                        true
                        (pileup_list true (opened [Good read1; Good read2]))
                        read1] |},
        logged OpClose
          (shut (moved (opened [Good read1; Good read2]) 1
                       (prepass_log true (opened [Good read1; Good read2])
                        ++ [OpNext; OpTell; OpSeek 1])))).
Proof.
  split; [reflexivity|]. split; [lia|].
  apply (@non_positive_cap_gives_one_row (-2)%Z true
           (opened [Good read1; Good read2]) read1); [reflexivity|lia].
Defined.

(** ** Closing the stream *)

(** C2 fails as stated: when the library raises in the middle of the
    iteration, the SAM extractor lets the error through and the stream
    stays open. *)
Lemma sam_leaves_stream_open_on_failure :
  fst (SAMFeaturizer._featurize None (opened [Good read1; Bad decode_error]))
  = Raised decode_error
  /\ closed (snd (SAMFeaturizer._featurize
                    None (opened [Good read1; Bad decode_error]))) = false.
Proof. split; reflexivity. Qed.

(** C2 (amended): every call ends by returning or by raising.  A SAM,
    BAM or CRAM call that returns (cap reached or stream exhausted) has
    closed the stream.  The FASTA call closes the handle it opened on
    every way out, failure included; it has no handle only when the file
    cannot be opened. *)
Theorem stream_closed_on_return_fasta_always
        (max_records : option Z) (get_pileup : bool) (s : stream)
        (fs : filesystem) (path : string) :
  let exits (run : outcome ndarray * stream) :=
    match fst run with
    | Returned _ => closed (snd run) = true
    | Raised _ => True
    | OutOfFuel => False
    end in
  exits (SAMFeaturizer._featurize max_records s)
  /\ exits (BAMFeaturizer._featurize max_records get_pileup s)
  /\ exits (CRAMFeaturizer._featurize max_records s)
  /\ match FASTAFeaturizer._featurize fs path with
     | (OutOfFuel, _) => False
     | (_, Some fasta) => fx_closed fasta = true
     | (Raised _, None) => fs path = None
     | (Returned _, None) => False
     end.
Proof.
  intros exits. unfold exits.
  assert (Hsam : forall mr,
             match fst (SAMFeaturizer._featurize mr s) with
             | Returned _ => closed (snd (SAMFeaturizer._featurize mr s)) = true
             | Raised _ => True
             | OutOfFuel => False
             end).
  { intros mr. rewrite sam_featurize_scan.
    destruct (scan mr 0 (remaining s)) as [rs [| |x]]; reflexivity. }
  split; [apply Hsam|]. split; [|split].
  - rewrite bam_featurize_scan.
    destruct (scan max_records 0 (remaining s)) as [rs [| |x]]; reflexivity.
  - apply Hsam.
  - rewrite fasta_featurize_scan.
    destruct (fs path) as [entries|]; [|reflexivity].
    destruct (scan None 0 entries) as [es [| |x]]; reflexivity.
Qed.

(** A FASTA file that cannot be read to its end: the error gets out and
    the handle is closed all the same. *)
Example fasta_closed_on_failure :
  FASTAFeaturizer._featurize
    (one_fasta_file [Good {| name := "seq1"; sequence := "ACGT" |};
                     Bad decode_error])
    "example.fasta"
  = (Raised decode_error,
     Some {| fx_entries := [Good {| name := "seq1"; sequence := "ACGT" |};
                            Bad decode_error];
             fx_pos := 1; fx_closed := true |}).
Proof. reflexivity. Qed.

(** ** The pileup pre-pass of the BAM extractor *)

(** C5: with [get_pileup] the pre-pass returns the pileup list and leaves
    the stream at the position it recorded before the pileup pass began:
    it tells, runs the pass, and seeks to the position told. *)
Theorem prepass_restores_position (s : stream) :
  BAMFeaturizer.prepass true s
  = (Returned (map BAMFeaturizer.pileup_info (pileup_columns_of s)),
     {| items := items s; pos := pos s; closed := closed s;
        pileup_columns_of := pileup_columns_of s;
        pileup_leaves_at := pileup_leaves_at s;
        log := log s ++ [OpTell; OpPileup; OpSeek (pos s)] |})
  /\ pos (snd (BAMFeaturizer.prepass true s)) = pos s
  /\ pos (snd (bind tell (fun _ => pileup) s)) = pileup_leaves_at s.
Proof.
  rewrite bam_prepass_moved. unfold moved. cbn.
  rewrite Nat.add_0_r. repeat split.
Qed.

(** C4: with [get_pileup] the pileup list is computed exactly once in a
    call, whatever [max_records] is, and before the first record is read:
    the log of the call starts with tell, pileup, seek, and what follows
    holds no pileup.  Every row of the table returned has ten fields, the
    last of which is that one list. *)
Theorem pileup_once_and_on_every_row (max_records : option Z) (s : stream) :
  exists main_pass,
    log (snd (BAMFeaturizer._featurize max_records true s))
    = log s ++ [OpTell; OpPileup; OpSeek (pos s)] ++ main_pass
    /\ count_pileup main_pass = 0
    /\ count_pileup (log (snd (BAMFeaturizer._featurize max_records true s)))
       = count_pileup (log s) + 1
    /\ match fst (BAMFeaturizer._featurize max_records true s) with
       | Returned table =>
           Forall (fun feature_vector =>
                     length feature_vector = 10
                     /\ nth_error feature_vector 9
                        = Some (CList (map BAMFeaturizer.pileup_info
                                           (pileup_columns_of s))))
                  (data table)
       | Raised _ => True
       | OutOfFuel => False
       end.
Proof.
  exists (bam_reads (pos s)
                    (length (fst (scan max_records 0 (remaining s))))
          ++ last_read (snd (scan max_records 0 (remaining s)))
          ++ closing (snd (scan max_records 0 (remaining s)))).
  assert (Hmain :
            count_pileup
              (bam_reads (pos s)
                         (length (fst (scan max_records 0 (remaining s))))
               ++ last_read (snd (scan max_records 0 (remaining s)))
               ++ closing (snd (scan max_records 0 (remaining s)))) = 0).
  { now rewrite !count_pileup_app, count_pileup_bam_reads,
      count_pileup_last_read, count_pileup_closing. }
  split; [apply (bam_featurize_log max_records true s)|].
  split; [exact Hmain|].
  split.
  - rewrite (bam_featurize_log max_records true s).
    cbn [prepass_log].
    rewrite count_pileup_app,
      (count_pileup_app [OpTell; OpPileup; OpSeek (pos s)]), Hmain.
    reflexivity.
  - rewrite bam_featurize_scan.
    destruct (scan max_records 0 (remaining s)) as [rs [| |x]];
      cbn [fst]; try exact I;
      rewrite data_np_array; apply Forall_forall; intros fv Hin;
      apply in_map_iff in Hin; destruct Hin as [r [<- _]];
      split; reflexivity.
Qed.

(** ** The rows *)

(** C6: the table the SAM or CRAM extractor returns is made of the
    records it consumed, a prefix of the records in front of the cursor,
    one row per record and in stream order; a row is the seven attributes
    of its record as they are, [None] included. *)
Theorem sam_cram_rows_are_the_records_in_order
        (max_records : option Z) (s : stream) (sam cram : ndarray) :
  fst (SAMFeaturizer._featurize max_records s) = Returned sam ->
  fst (CRAMFeaturizer._featurize max_records s) = Returned cram ->
  exists consumed rest,
    remaining s = map (@Good _) consumed ++ rest
    /\ pos (snd (SAMFeaturizer._featurize max_records s))
       = pos s + length consumed
    /\ pos (snd (CRAMFeaturizer._featurize max_records s))
       = pos s + length consumed
    /\ data sam
       = map (fun record =>
                [ py_str (query_name record);
                  py_str (query_sequence record);
                  CInt (query_length record);
                  py_str (reference_name record);
                  CInt (reference_start record);
                  py_cigar (cigar record);
                  CInt (mapping_quality record) ]) consumed
    /\ data cram = data sam
    /\ py_str None = CNone.
Proof.
  intros Hsam Hcram.
  assert (Heq : CRAMFeaturizer._featurize max_records s
                = SAMFeaturizer._featurize max_records s)
    by apply cram_featurize_sam_featurize.
  assert (Hc : cram = sam) by congruence.
  subst cram. rewrite Heq. clear Heq Hcram.
  revert Hsam. rewrite sam_featurize_scan.
  destruct (scan max_records 0 (remaining s)) as [rs e] eqn:Hscan.
  destruct (scan_prefix _ _ _ Hscan) as [rest Hrest].
  intros Hsam. exists rs, rest.
  destruct e as [| |x]; cbn in Hsam; inversion Hsam;
    rewrite data_np_array; repeat split; assumption.
Qed.

Lemma sam_cram_rows_are_the_records_in_order_witness :
  fst (SAMFeaturizer._featurize
         (Some 2%Z) (opened [Good read1; Good read2; Good read3]))
  = Returned (np_array (map SAMFeaturizer.feature_vector [read1; read2]))
  /\ fst (CRAMFeaturizer._featurize
            (Some 2%Z) (opened [Good read1; Good read2; Good read3]))
     = Returned (np_array (map SAMFeaturizer.feature_vector [read1; read2]))
  /\ exists consumed rest,
      remaining (opened [Good read1; Good read2; Good read3])
      = map (@Good _) consumed ++ rest
      /\ pos (snd (SAMFeaturizer._featurize
                     (Some 2%Z) (opened [Good read1; Good read2; Good read3])))
         = 0 + length consumed
      /\ pos (snd (CRAMFeaturizer._featurize
                     (Some 2%Z) (opened [Good read1; Good read2; Good read3])))
         = 0 + length consumed
      /\ data (np_array (map SAMFeaturizer.feature_vector [read1; read2]))
         = map (fun record =>
                  [ py_str (query_name record);
                    py_str (query_sequence record);
                    CInt (query_length record);
                    py_str (reference_name record);
                    CInt (reference_start record);
                    py_cigar (cigar record);
                    CInt (mapping_quality record) ]) consumed
      /\ data (np_array (map SAMFeaturizer.feature_vector [read1; read2]))
         = data (np_array (map SAMFeaturizer.feature_vector [read1; read2]))
      /\ py_str None = CNone.
Proof.
  split; [reflexivity|]. split; [reflexivity|].
  apply (@sam_cram_rows_are_the_records_in_order
           (Some 2%Z) (opened [Good read1; Good read2; Good read3])
           (np_array (map SAMFeaturizer.feature_vector [read1; read2]))
           (np_array (map SAMFeaturizer.feature_vector [read1; read2])));
    reflexivity.
Defined.

(** A stream of good records is read without failure, so the SAM call
    returns a table. *)
Lemma sam_returns_on_good_stream
      (max_records : option Z) (s : stream) (rs : list AlignedSegment) :
  remaining s = map (@Good _) rs ->
  exists table, fst (SAMFeaturizer._featurize max_records s) = Returned table.
Proof.
  intros H. rewrite sam_featurize_scan, H.
  destruct (scan max_records 0 (map (@Good _) rs)) as [taken e] eqn:Hs.
  destruct e as [| |x]; cbn; eauto.
  exfalso. clear H. revert taken Hs. generalize 0%Z.
  induction rs as [|r rs IH]; intros c taken Hs; cbn [map scan] in Hs.
  - discriminate.
  - destruct (cap_reached max_records (c + 1)); [discriminate|].
    destruct (scan max_records (c + 1) (map (@Good _) rs)) as [t e] eqn:Ht.
    inversion Hs; subst. eapply IH; eassumption.
Qed.

(** C7: for a FASTA file of well-formed entries the table has one row
    per entry, in file order, and a row is the pair of the name and the
    sequence of its entry; nothing is capped, added or left out. *)
Theorem fasta_rows_are_the_entries
        (fs : filesystem) (path : string) (entries : list FastxRecord) :
  fs path = Some (map (@Good _) entries) ->
  FASTAFeaturizer._featurize fs path
  = (Returned
       (np_array (map (fun entry => [CStr (name entry); CStr (sequence entry)])
                      entries)),
     Some {| fx_entries := map (@Good _) entries;
             fx_pos := length entries; fx_closed := true |})
  /\ length
       (data (np_array
                (map (fun entry => [CStr (name entry); CStr (sequence entry)])
                     entries)))
     = length entries.
Proof.
  intros Hfile. rewrite fasta_featurize_scan, Hfile, scan_uncapped.
  split; [reflexivity|].
  now rewrite data_np_array, length_map.
Qed.

Lemma fasta_rows_are_the_entries_witness :
  one_fasta_file
    (map (@Good _) [ {| name := "seq1"; sequence := "ACGT" |};
                     {| name := "seq2"; sequence := "TTTT" |} ])
    "example.fasta"%string
  = Some (map (@Good _) [ {| name := "seq1"; sequence := "ACGT" |};
                          {| name := "seq2"; sequence := "TTTT" |} ])
  /\ FASTAFeaturizer._featurize
       (one_fasta_file
          (map (@Good _) [ {| name := "seq1"; sequence := "ACGT" |};
                           {| name := "seq2"; sequence := "TTTT" |} ]))
       "example.fasta"
     = (Returned {| shape := [2; 2];
                    data := [ [CStr "seq1"; CStr "ACGT"];
                              [CStr "seq2"; CStr "TTTT"] ] |},
        Some {| fx_entries :=
                  map (@Good _) [ {| name := "seq1"; sequence := "ACGT" |};
                                  {| name := "seq2"; sequence := "TTTT" |} ];
                fx_pos := 2; fx_closed := true |}).
Proof.
  split; [reflexivity|].
  apply (@fasta_rows_are_the_entries
           (one_fasta_file
              (map (@Good _) [ {| name := "seq1"; sequence := "ACGT" |};
                               {| name := "seq2"; sequence := "TTTT" |} ]))
           "example.fasta"
           [ {| name := "seq1"; sequence := "ACGT" |};
             {| name := "seq2"; sequence := "TTTT" |} ]).
  reflexivity.
Defined.

(** ** SAM and CRAM *)

(** C8: the SAM and the CRAM extractor are the same function: on every
    stream and for every [max_records] they end the same way, with the
    same table, and leave the stream in the same state, the log of the
    operations performed on it included. *)
Theorem sam_cram_extensionally_equal (max_records : option Z) (s : stream) :
  SAMFeaturizer._featurize max_records s
  = CRAMFeaturizer._featurize max_records s.
Proof.
  symmetry. apply cram_featurize_sam_featurize.
Qed.

(** ** Inputs without records *)

(** C10: with no record to read, the table of every extractor is the
    array of shape [(0,)]: one dimension, no columns, and so not a table
    of zero rows by seven, nine, ten or two columns. *)
Theorem no_records_gives_one_dimensional_empty_array
        (max_records : option Z) (get_pileup : bool) (s : stream)
        (fs : filesystem) (path : string) :
  length (items s) <= pos s ->
  fs path = Some [] ->
  fst (SAMFeaturizer._featurize max_records s)
  = Returned {| shape := [0]; data := [] |}
  /\ fst (BAMFeaturizer._featurize max_records get_pileup s)
     = Returned {| shape := [0]; data := [] |}
  /\ fst (CRAMFeaturizer._featurize max_records s)
     = Returned {| shape := [0]; data := [] |}
  /\ fst (FASTAFeaturizer._featurize fs path)
     = Returned {| shape := [0]; data := [] |}
  /\ forall columns, shape (np_array []) <> [0; columns].
Proof.
  intros Hend Hfile.
  assert (Hsam : fst (SAMFeaturizer._featurize max_records s)
                 = Returned {| shape := [0]; data := [] |}).
  { rewrite sam_featurize_scan, remaining_nil by exact Hend. reflexivity. }
  split; [exact Hsam|]. split; [|split; [|split]].
  - rewrite bam_featurize_scan, remaining_nil by exact Hend. reflexivity.
  - exact Hsam.
  - rewrite fasta_featurize_scan, Hfile. reflexivity.
  - intros columns. discriminate.
Qed.

Lemma no_records_gives_one_dimensional_empty_array_witness :
  length (items (opened [])) <= pos (opened [])
  /\ one_fasta_file [] "example.fasta"%string = Some []
  /\ fst (SAMFeaturizer._featurize (Some 4%Z) (opened []))
     = Returned {| shape := [0]; data := [] |}
  /\ fst (BAMFeaturizer._featurize (Some 4%Z) true (opened []))
     = Returned {| shape := [0]; data := [] |}
  /\ fst (CRAMFeaturizer._featurize (Some 4%Z) (opened []))
     = Returned {| shape := [0]; data := [] |}
  /\ fst (FASTAFeaturizer._featurize (one_fasta_file []) "example.fasta")
     = Returned {| shape := [0]; data := [] |}
  /\ forall columns, shape (np_array []) <> [0; columns].
Proof.
  split; [simpl; lia|]. split; [reflexivity|].
  apply (@no_records_gives_one_dimensional_empty_array
           (Some 4%Z) true (opened []) (one_fasta_file []) "example.fasta");
    [simpl; lia|reflexivity].
Defined.

(** * Further properties of the extractors *)

(** ** More facts about [scan] *)

Lemma cap_reached_earlier (max_records : option Z) (a b : Z) :
  (a <= b)%Z ->
  cap_reached max_records b = false -> cap_reached max_records a = false.
Proof.
  destruct max_records as [m|]; [|reflexivity].
  cbn [cap_reached]. intros Hab Hb.
  apply Z.leb_gt in Hb. apply Z.leb_gt. lia.
Qed.

(** Good records that do not reach the cap are all taken, and the pass
    goes on with what follows them. *)
Lemma scan_good_prefix {A} (max_records : option Z) :
  forall (rs : list A) (c : Z) (tail : list (item A)),
    cap_reached max_records (c + Z.of_nat (length rs)) = false ->
    scan max_records c (map (@Good A) rs ++ tail)
    = (rs ++ fst (scan max_records (c + Z.of_nat (length rs)) tail),
       snd (scan max_records (c + Z.of_nat (length rs)) tail)).
Proof.
  induction rs as [|r rs IH]; intros c tail Hcap.
  - cbn [map app length Z.of_nat]. rewrite Z.add_0_r.
    now destruct (scan max_records c tail).
  - cbn [map app scan].
    rewrite (@cap_reached_earlier max_records (c + 1)
               (c + Z.of_nat (length (r :: rs)))) by (trivial; simpl length; lia).
    replace (c + Z.of_nat (length (r :: rs)))%Z
      with (c + 1 + Z.of_nat (length rs))%Z in * by (simpl length; lia).
    rewrite IH by exact Hcap. reflexivity.
Qed.

(** Good records that reach the cap exactly with the last of them are
    the ones taken: what follows is not looked at. *)
Lemma scan_exact_cap {A} (m : Z) :
  forall (rs : list A) (c : Z) (tail : list (item A)),
    rs <> [] ->
    (c + Z.of_nat (length rs))%Z = m ->
    scan (Some m) c (map (@Good A) rs ++ tail) = (rs, Capped).
Proof.
  induction rs as [|r rs IH]; intros c tail Hne Hm; [congruence|].
  cbn [map app scan cap_reached].
  destruct rs as [|r' rs].
  - simpl length in Hm.
    destruct (Z.leb_spec m (c + 1)); [reflexivity|lia].
  - destruct (Z.leb_spec m (c + 1)) as [Hle|Hlt].
    + simpl length in Hm. lia.
    + rewrite (IH (c + 1)%Z tail); [reflexivity|discriminate|].
      simpl length in *. lia.
Qed.

(** All caps of one or less stop the pass at the same place. *)
Lemma scan_cap_at_most_one {A} (m : Z) (l : list (item A)) :
  (m <= 1)%Z -> scan (Some m) 0 l = scan (Some 1%Z) 0 l.
Proof.
  intros Hm. destruct l as [|[r|x] l]; try reflexivity.
  cbn [scan cap_reached].
  destruct (Z.leb_spec m (0 + 1)); [reflexivity|lia].
Qed.

(** A cap that stops no later takes a prefix of what the other takes. *)
Lemma scan_cap_monotone {A} (mr mr' : option Z) :
  (forall c, cap_reached mr' c = true -> cap_reached mr c = true) ->
  forall (l : list (item A)) c rs e rs' e',
    scan mr c l = (rs, e) ->
    scan mr' c l = (rs', e') ->
    exists extra, rs' = rs ++ extra.
Proof.
  intros Hle.
  induction l as [|[r|x] l IH]; intros c rs e rs' e' H H';
    cbn [scan] in H, H'.
  - inversion H; inversion H'; subst. now exists [].
  - destruct (cap_reached mr (c + 1)) eqn:Hc.
    + inversion H; subst.
      destruct (cap_reached mr' (c + 1)).
      * inversion H'; subst. now exists [].
      * destruct (scan mr' (c + 1) l) as [t' u'].
        inversion H'; subst. now exists t'.
    + destruct (cap_reached mr' (c + 1)) eqn:Hc'.
      * apply Hle in Hc'. congruence.
      * destruct (scan mr (c + 1) l) as [t u] eqn:Ht.
        destruct (scan mr' (c + 1) l) as [t' u'] eqn:Ht'.
        inversion H; inversion H'; subst.
        destruct (IH _ _ _ _ _ Ht Ht') as [extra ->].
        now exists extra.
  - inversion H; inversion H'; subst. now exists [].
Qed.

Lemma scan_positive_cap_good {A} (m : Z) (rs : list A) :
  (1 <= m)%Z ->
  scan (Some m) 0 (map (@Good A) rs)
  = (firstn (Z.to_nat m) rs,
     if Z.to_nat m <=? length rs then Capped else Exhausted).
Proof.
  intros Hm.
  destruct (Nat.leb_spec (Z.to_nat m) (length rs)) as [Hle|Hlt].
  - rewrite <- (firstn_skipn (Z.to_nat m) rs) at 1.
    rewrite map_app.
    apply scan_exact_cap.
    + intros Hnil. apply (f_equal (@length A)) in Hnil.
      rewrite length_firstn in Hnil. simpl in Hnil. lia.
    + rewrite length_firstn. lia.
  - rewrite <- (app_nil_r (map (@Good A) rs)).
    rewrite scan_good_prefix.
    + cbn [scan fst snd]. rewrite app_nil_r.
      now rewrite firstn_all2 by lia.
    + cbn [cap_reached]. apply Z.leb_gt. lia.
Qed.


(** ** The rows of the BAM extractor *)



(** ** What a cap of one or more selects *)

(** On a stream of well-formed records a cap [m >= 1] selects the first
    [m] records, or all of them when there are fewer: the table of each
    extractor is the rows of exactly those records and the cursor stops
    behind the last of them. *)
Theorem positive_cap_takes_first_records
        (m : Z) (get_pileup : bool) (s : stream) (rs : list AlignedSegment) :
  (1 <= m)%Z ->
  remaining s = map (@Good _) rs ->
  fst (SAMFeaturizer._featurize (Some m) s)
  = Returned (np_array (map SAMFeaturizer.feature_vector
                            (firstn (Z.to_nat m) rs)))
  /\ fst (CRAMFeaturizer._featurize (Some m) s)
     = Returned (np_array (map CRAMFeaturizer.feature_vector
                               (firstn (Z.to_nat m) rs)))
  /\ fst (BAMFeaturizer._featurize (Some m) get_pileup s)
     = Returned
         (np_array (map (BAMFeaturizer.feature_vector
                           get_pileup (pileup_list get_pileup s))
                        (firstn (Z.to_nat m) rs)))
  /\ pos (snd (SAMFeaturizer._featurize (Some m) s))
     = pos s + Nat.min (Z.to_nat m) (length rs)
  /\ pos (snd (BAMFeaturizer._featurize (Some m) get_pileup s))
     = pos s + Nat.min (Z.to_nat m) (length rs).
Proof.
  intros Hm Hrem.
  assert (Hsam : SAMFeaturizer._featurize (Some m) s
                 = (Returned (np_array (map SAMFeaturizer.feature_vector
                                            (firstn (Z.to_nat m) rs))),
                    logged OpClose
                      (shut (moved s (length (firstn (Z.to_nat m) rs))
                               (repeat OpNext
                                       (length (firstn (Z.to_nat m) rs))
                                ++ last_read
                                     (if Z.to_nat m <=? length rs
                                      then Capped else Exhausted)))))).
  { rewrite sam_featurize_scan, Hrem, scan_positive_cap_good by exact Hm.
    destruct (Z.to_nat m <=? length rs); reflexivity. }
  split; [now rewrite Hsam|].
  split.
  { transitivity (fst (SAMFeaturizer._featurize (Some m) s));
      [apply f_equal, cram_featurize_sam_featurize|now rewrite Hsam]. }
  split.
  { rewrite bam_featurize_scan, Hrem, scan_positive_cap_good by exact Hm.
    destruct (Z.to_nat m <=? length rs); reflexivity. }
  split.
  { rewrite Hsam. cbn. now rewrite length_firstn. }
  rewrite bam_featurize_scan, Hrem, scan_positive_cap_good by exact Hm.
  destruct (Z.to_nat m <=? length rs); cbn; now rewrite length_firstn.
Qed.

Lemma positive_cap_takes_first_records_witness :
  (1 <= 2)%Z
  /\ remaining (opened [Good read1; Good read2; Good read3])
     = map (@Good _) [read1; read2; read3]
  /\ fst (SAMFeaturizer._featurize
            (Some 2%Z) (opened [Good read1; Good read2; Good read3]))
     = Returned (np_array (map SAMFeaturizer.feature_vector
                               (firstn (Z.to_nat 2) [read1; read2; read3])))
  /\ fst (CRAMFeaturizer._featurize
            (Some 2%Z) (opened [Good read1; Good read2; Good read3]))
     = Returned (np_array (map CRAMFeaturizer.feature_vector
                               (firstn (Z.to_nat 2) [read1; read2; read3])))
  /\ fst (BAMFeaturizer._featurize
            (Some 2%Z) false (opened [Good read1; Good read2; Good read3]))
     = Returned
         (np_array
            (map (BAMFeaturizer.feature_vector
                    false
                    (pileup_list
                       false (opened [Good read1; Good read2; Good read3])))
                 (firstn (Z.to_nat 2) [read1; read2; read3])))
  /\ pos (snd (SAMFeaturizer._featurize
                 (Some 2%Z) (opened [Good read1; Good read2; Good read3])))
     = 0 + Nat.min (Z.to_nat 2) (length [read1; read2; read3])
  /\ pos (snd (BAMFeaturizer._featurize
                 (Some 2%Z) false
                 (opened [Good read1; Good read2; Good read3])))
     = 0 + Nat.min (Z.to_nat 2) (length [read1; read2; read3]).
Proof.
  split; [lia|]. split; [reflexivity|].
  apply (@positive_cap_takes_first_records
           2%Z false (opened [Good read1; Good read2; Good read3])
           [read1; read2; read3]); [lia|reflexivity].
Defined.

(** ** What a call does to the stream *)



(** When the stream ends before the cap is reached (or there is no cap),
    the table holds every record that was in front of the cursor, the
    call has made one read more than there are rows (the read that found
    the end), the cursor is at the end and the stream is closed. *)
Theorem exhausted_call_reads_once_more
        (max_records : option Z) (get_pileup : bool) (s : stream)
        (rs : list AlignedSegment) :
  cap_reached max_records (Z.of_nat (length rs)) = false ->
  remaining s = map (@Good _) rs ->
  SAMFeaturizer._featurize max_records s
  = (Returned (np_array (map SAMFeaturizer.feature_vector rs)),
     logged OpClose
       (shut (moved s (length rs) (repeat OpNext (length rs) ++ [OpNext]))))
  /\ BAMFeaturizer._featurize max_records get_pileup s
     = (Returned
          (np_array (map (BAMFeaturizer.feature_vector
                            get_pileup (pileup_list get_pileup s)) rs)),
        logged OpClose
          (shut (moved s (length rs)
                       (prepass_log get_pileup s
                        ++ bam_reads (pos s) (length rs) ++ [OpNext])))).
Proof.
  intros Hcap Hrem.
  assert (Hscan : scan max_records 0 (remaining s) = (rs, Exhausted)).
  { rewrite Hrem, <- (app_nil_r (map (@Good _) rs)).
    rewrite scan_good_prefix by exact Hcap.
    cbn [scan fst snd]. now rewrite app_nil_r. }
  split.
  - rewrite sam_featurize_scan, Hscan. reflexivity.
  - rewrite bam_featurize_scan, Hscan. reflexivity.
Qed.

Lemma exhausted_call_reads_once_more_witness :
  cap_reached (Some 5%Z) (Z.of_nat (length [read1; read2])) = false
  /\ remaining (opened [Good read1; Good read2]) = map (@Good _) [read1; read2]
  /\ SAMFeaturizer._featurize (Some 5%Z) (opened [Good read1; Good read2])
     = (Returned (np_array (map SAMFeaturizer.feature_vector [read1; read2])),
        logged OpClose
          (shut (moved (opened [Good read1; Good read2])
                       (length [read1; read2])
                       (repeat OpNext (length [read1; read2]) ++ [OpNext]))))
  /\ BAMFeaturizer._featurize (Some 5%Z) false
       (opened [Good read1; Good read2])
     = (Returned
          (np_array
             (map (BAMFeaturizer.feature_vector
                     false (pileup_list false (opened [Good read1; Good read2])))
                  [read1; read2])),
        logged OpClose
          (shut (moved (opened [Good read1; Good read2])
                       (length [read1; read2])
                       (prepass_log false (opened [Good read1; Good read2])
                        ++ bam_reads 0 (length [read1; read2]) ++ [OpNext])))).
Proof.
  split; [reflexivity|]. split; [reflexivity|].
  apply (@exhausted_call_reads_once_more
           (Some 5%Z) false (opened [Good read1; Good read2])
           [read1; read2]); reflexivity.
Defined.



(** ** Comparing caps *)

(** A pass that fails under some cap fails in the same way under every
    cap that stops no earlier. *)
Lemma scan_failure_persists {A} (mr mr' : option Z) :
  (forall c, cap_reached mr' c = true -> cap_reached mr c = true) ->
  forall (l : list (item A)) c rs x,
    scan mr c l = (rs, Failed x) ->
    scan mr' c l = (rs, Failed x).
Proof.
  intros Hle.
  induction l as [|[r|y] l IH]; intros c rs x H; cbn [scan] in *.
  - discriminate.
  - destruct (cap_reached mr (c + 1)) eqn:Hc; [discriminate|].
    destruct (cap_reached mr' (c + 1)) eqn:Hc'.
    + apply Hle in Hc'. congruence.
    + destruct (scan mr (c + 1) l) as [t u] eqn:Ht.
      inversion H; subst.
      now rewrite (IH _ _ _ Ht).
  - exact H.
Qed.

Lemma cap_order_some (m m' : Z) :
  (m <= m')%Z ->
  forall c, cap_reached (Some m') c = true -> cap_reached (Some m) c = true.
Proof.
  intros Hm c. cbn [cap_reached]. intros H.
  apply Z.leb_le in H. apply Z.leb_le. lia.
Qed.

Lemma cap_order_none (mr : option Z) :
  forall c, cap_reached None c = true -> cap_reached mr c = true.
Proof. intros c H. discriminate. Qed.

Lemma sam_extends (mr mr' : option Z) (s : stream) :
  (forall c, cap_reached mr' c = true -> cap_reached mr c = true) ->
  extends (fst (SAMFeaturizer._featurize mr s))
          (fst (SAMFeaturizer._featurize mr' s)).
Proof.
  intros Hle. rewrite !sam_featurize_scan.
  destruct (scan mr 0 (remaining s)) as [rs e] eqn:H.
  destruct (scan mr' 0 (remaining s)) as [rs' e'] eqn:H'.
  destruct (@scan_cap_monotone _ mr mr' Hle _ _ _ _ _ _ H H') as [extra ->].
  assert (Hok : match e' with Failed _ => True | _ =>
                  match e with Failed _ => False | _ => True end end).
  { destruct e as [| |x]; destruct e'; trivial;
      rewrite (@scan_failure_persists _ mr mr' Hle _ _ _ _ H) in H'; discriminate. }
  destruct e' as [| |x']; destruct e as [| |x]; cbn; try exact I;
    try contradiction;
    eexists; eexists; (split; [reflexivity|]);
    rewrite !data_np_array, map_app; reflexivity.
Qed.

Lemma bam_extends (mr mr' : option Z) (get_pileup : bool) (s : stream) :
  (forall c, cap_reached mr' c = true -> cap_reached mr c = true) ->
  extends (fst (BAMFeaturizer._featurize mr get_pileup s))
          (fst (BAMFeaturizer._featurize mr' get_pileup s)).
Proof.
  intros Hle. rewrite !bam_featurize_scan.
  destruct (scan mr 0 (remaining s)) as [rs e] eqn:H.
  destruct (scan mr' 0 (remaining s)) as [rs' e'] eqn:H'.
  destruct (@scan_cap_monotone _ mr mr' Hle _ _ _ _ _ _ H H') as [extra ->].
  assert (Hok : match e' with Failed _ => True | _ =>
                  match e with Failed _ => False | _ => True end end).
  { destruct e as [| |x]; destruct e'; trivial;
      rewrite (@scan_failure_persists _ mr mr' Hle _ _ _ _ H) in H'; discriminate. }
  destruct e' as [| |x']; destruct e as [| |x]; cbn; try exact I;
    try contradiction;
    eexists; eexists; (split; [reflexivity|]);
    rewrite !data_np_array, map_app; reflexivity.
Qed.

(** Raising the cap only adds rows at the end of the table, and so does
    removing it: if a call returns a table under a cap [m'] (or without a
    cap), the call under any smaller cap [m] returns too, and its table
    is a prefix of the other. *)
Theorem raising_the_cap_only_appends_rows
        (m m' : Z) (get_pileup : bool) (s : stream) :
  (m <= m')%Z ->
  extends (fst (SAMFeaturizer._featurize (Some m) s))
          (fst (SAMFeaturizer._featurize (Some m') s))
  /\ extends (fst (SAMFeaturizer._featurize (Some m') s))
             (fst (SAMFeaturizer._featurize None s))
  /\ extends (fst (BAMFeaturizer._featurize (Some m) get_pileup s))
             (fst (BAMFeaturizer._featurize (Some m') get_pileup s))
  /\ extends (fst (BAMFeaturizer._featurize (Some m') get_pileup s))
             (fst (BAMFeaturizer._featurize None get_pileup s)).
Proof.
  intros Hm. repeat split.
  - apply sam_extends. now apply cap_order_some.
  - apply sam_extends. apply cap_order_none.
  - apply bam_extends. now apply cap_order_some.
  - apply bam_extends. apply cap_order_none.
Qed.

Lemma raising_the_cap_only_appends_rows_witness :
  (1 <= 2)%Z
  /\ extends (fst (SAMFeaturizer._featurize
                     (Some 1%Z) (opened [Good read1; Good read2; Good read3])))
             (fst (SAMFeaturizer._featurize
                     (Some 2%Z) (opened [Good read1; Good read2; Good read3])))
  /\ extends (fst (SAMFeaturizer._featurize
                     (Some 2%Z) (opened [Good read1; Good read2; Good read3])))
             (fst (SAMFeaturizer._featurize
                     None (opened [Good read1; Good read2; Good read3])))
  /\ extends (fst (BAMFeaturizer._featurize
                     (Some 1%Z) true
                     (opened [Good read1; Good read2; Good read3])))
             (fst (BAMFeaturizer._featurize
                     (Some 2%Z) true
                     (opened [Good read1; Good read2; Good read3])))
  /\ extends (fst (BAMFeaturizer._featurize
                     (Some 2%Z) true
                     (opened [Good read1; Good read2; Good read3])))
             (fst (BAMFeaturizer._featurize
                     None true (opened [Good read1; Good read2; Good read3]))).
Proof.
  split; [lia|].
  apply (@raising_the_cap_only_appends_rows
           1%Z 2%Z true (opened [Good read1; Good read2; Good read3])).
  lia.
Defined.

(** Every cap of one or less acts as a cap of one: on every stream the
    call ends the same way, with the same table, and leaves the stream in
    the same state. *)
Theorem caps_up_to_one_act_as_one
        (m : Z) (get_pileup : bool) (s : stream) :
  (m <= 1)%Z ->
  SAMFeaturizer._featurize (Some m) s
  = SAMFeaturizer._featurize (Some 1%Z) s
  /\ CRAMFeaturizer._featurize (Some m) s
     = CRAMFeaturizer._featurize (Some 1%Z) s
  /\ BAMFeaturizer._featurize (Some m) get_pileup s
     = BAMFeaturizer._featurize (Some 1%Z) get_pileup s.
Proof.
  intros Hm.
  assert (Hsam : SAMFeaturizer._featurize (Some m) s
                 = SAMFeaturizer._featurize (Some 1%Z) s).
  { rewrite (sam_featurize_scan (Some m)), (sam_featurize_scan (Some 1%Z)).
    now rewrite (@scan_cap_at_most_one _ m (remaining s) Hm). }
  split; [exact Hsam|]. split.
  - transitivity (SAMFeaturizer._featurize (Some m) s);
      [apply cram_featurize_sam_featurize|].
    rewrite Hsam. symmetry. apply cram_featurize_sam_featurize.
  - rewrite (bam_featurize_scan (Some m)), (bam_featurize_scan (Some 1%Z)).
    now rewrite (@scan_cap_at_most_one _ m (remaining s) Hm).
Qed.

Lemma caps_up_to_one_act_as_one_witness :
  (-3 <= 1)%Z
  /\ SAMFeaturizer._featurize (Some (-3)%Z) (opened [Good read1; Good read2])
     = SAMFeaturizer._featurize (Some 1%Z) (opened [Good read1; Good read2])
  /\ CRAMFeaturizer._featurize (Some (-3)%Z) (opened [Good read1; Good read2])
     = CRAMFeaturizer._featurize (Some 1%Z) (opened [Good read1; Good read2])
  /\ BAMFeaturizer._featurize (Some (-3)%Z) true
       (opened [Good read1; Good read2])
     = BAMFeaturizer._featurize (Some 1%Z) true
         (opened [Good read1; Good read2]).
Proof.
  split; [lia|].
  apply (@caps_up_to_one_act_as_one
           (-3)%Z true (opened [Good read1; Good read2])).
  lia.
Defined.

(** ** BAM against SAM *)



(** ** The shape of the table *)

Lemma np_array_uniform (rows : list row) (n : nat) :
  rows <> [] ->
  Forall (fun r => length r = n) rows ->
  shape (np_array rows) = [length rows; n].
Proof.
  destruct rows as [|r rs]; [congruence|]. intros _ Hall.
  inversion Hall as [|? ? Hr Hrs]; subst.
  unfold np_array.
  assert (Hb : forallb (fun x => Nat.eqb (length x) (length r)) rs = true).
  { apply forallb_forall. intros x Hx. apply Nat.eqb_eq.
    rewrite Forall_forall in Hrs. now apply Hrs. }
  rewrite Hb. reflexivity.
Qed.

Lemma table_of_width_map {A} (f : A -> row) (n : nat) (l : list A) :
  (forall a, length (f a) = n) ->
  table_of_width n (np_array (map f l)).
Proof.
  intros Hf. unfold table_of_width. rewrite data_np_array.
  destruct l as [|a l].
  - left. split; reflexivity.
  - right. split; [discriminate|].
    apply np_array_uniform; [discriminate|].
    apply Forall_forall. intros x Hx.
    apply in_map_iff in Hx. destruct Hx as [b [<- _]].
    apply Hf.
Qed.

(** Every table an extractor returns is either the empty one-dimensional
    array or a two-dimensional array with one row per record and the
    width of its format: seven columns for SAM and CRAM, nine for BAM,
    ten for BAM with [get_pileup], two for FASTA. *)
Theorem returned_tables_have_the_width_of_their_format
        (max_records : option Z) (get_pileup : bool) (s : stream)
        (fs : filesystem) (path : string) :
  let checked (columns : nat) (r : outcome ndarray) :=
    match r with
    | Returned table => table_of_width columns table
    | _ => True
    end in
  checked 7 (fst (SAMFeaturizer._featurize max_records s))
  /\ checked 7 (fst (CRAMFeaturizer._featurize max_records s))
  /\ checked (if get_pileup then 10 else 9)
             (fst (BAMFeaturizer._featurize max_records get_pileup s))
  /\ checked 2 (fst (FASTAFeaturizer._featurize fs path)).
Proof.
  intros checked. unfold checked.
  assert (Hsam : match fst (SAMFeaturizer._featurize max_records s) with
                 | Returned table => table_of_width 7 table
                 | _ => True
                 end).
  { rewrite sam_featurize_scan.
    destruct (scan max_records 0 (remaining s)) as [rs [| |x]]; cbn;
      try exact I; now apply table_of_width_map. }
  split; [exact Hsam|]. split; [exact Hsam|]. split.
  - rewrite bam_featurize_scan.
    destruct (scan max_records 0 (remaining s)) as [rs [| |x]]; cbn;
      try exact I; apply table_of_width_map; intros r;
      destruct get_pileup; reflexivity.
  - rewrite fasta_featurize_scan.
    destruct (fs path) as [entries|]; [|exact I].
    destruct (scan None 0 entries) as [es [| |x]]; cbn;
      try exact I; now apply table_of_width_map.
Qed.

(** ** What a call leaves alone *)





(** ** Failures of the FASTA extractor *)

(** A FASTA file that holds a malformed entry makes the call raise the
    error of that entry: the rows of the entries before it are lost, and
    the handle is closed by the [with] block.  A path that cannot be
    opened makes the call raise before any handle exists. *)
Theorem fasta_failure_closes_and_returns_nothing
        (fs : filesystem) (path missing : string)
        (entries : list FastxRecord) (e : exn)
        (rest : list (item FastxRecord)) :
  fs path = Some (map (@Good _) entries ++ Bad e :: rest) ->
  fs missing = None ->
  FASTAFeaturizer._featurize fs path
  = (Raised e,
     Some {| fx_entries := map (@Good _) entries ++ Bad e :: rest;
             fx_pos := length entries; fx_closed := true |})
  /\ (exists x, fst (FASTAFeaturizer._featurize fs missing) = Raised x)
  /\ snd (FASTAFeaturizer._featurize fs missing) = None.
Proof.
  intros Hfile Hmissing.
  rewrite !fasta_featurize_scan, Hfile, Hmissing.
  rewrite scan_good_prefix by reflexivity.
  cbn [scan fst snd result_of]. rewrite app_nil_r.
  repeat split. eexists. reflexivity.
Qed.

Lemma fasta_failure_closes_and_returns_nothing_witness :
  one_fasta_file
    (map (@Good _) [ {| name := "seq1"; sequence := "ACGT" |} ]
     ++ Bad decode_error :: [Good {| name := "seq2"; sequence := "TTTT" |}])
    "example.fasta"%string
  = Some (map (@Good _) [ {| name := "seq1"; sequence := "ACGT" |} ]
          ++ Bad decode_error
             :: [Good {| name := "seq2"; sequence := "TTTT" |}])
  /\ one_fasta_file
       (map (@Good _) [ {| name := "seq1"; sequence := "ACGT" |} ]
        ++ Bad decode_error
           :: [Good {| name := "seq2"; sequence := "TTTT" |}])
       "absent.fasta"%string
     = None
  /\ FASTAFeaturizer._featurize
       (one_fasta_file
          (map (@Good _) [ {| name := "seq1"; sequence := "ACGT" |} ]
           ++ Bad decode_error
              :: [Good {| name := "seq2"; sequence := "TTTT" |}]))
       "example.fasta"
     = (Raised decode_error,
        Some {| fx_entries :=
                  map (@Good _) [ {| name := "seq1"; sequence := "ACGT" |} ]
                  ++ Bad decode_error
                     :: [Good {| name := "seq2"; sequence := "TTTT" |}];
                fx_pos := length [ {| name := "seq1"; sequence := "ACGT" |} ];
                fx_closed := true |})
  /\ (exists x,
        fst (FASTAFeaturizer._featurize
               (one_fasta_file
                  (map (@Good _) [ {| name := "seq1"; sequence := "ACGT" |} ]
                   ++ Bad decode_error
                      :: [Good {| name := "seq2"; sequence := "TTTT" |}]))
               "absent.fasta") = Raised x)
  /\ snd (FASTAFeaturizer._featurize
            (one_fasta_file
               (map (@Good _) [ {| name := "seq1"; sequence := "ACGT" |} ]
                ++ Bad decode_error
                   :: [Good {| name := "seq2"; sequence := "TTTT" |}]))
            "absent.fasta") = None.
Proof.
  split; [reflexivity|]. split; [reflexivity|].
  apply (@fasta_failure_closes_and_returns_nothing
           (one_fasta_file
              (map (@Good _) [ {| name := "seq1"; sequence := "ACGT" |} ]
               ++ Bad decode_error
                  :: [Good {| name := "seq2"; sequence := "TTTT" |}]))
           "example.fasta" "absent.fasta"
           [ {| name := "seq1"; sequence := "ACGT" |} ]
           decode_error
           [Good {| name := "seq2"; sequence := "TTTT" |}]);
    reflexivity.
Defined.

(** ** Featurizer objects *)

(** A BAM featurizer whose [get_pileup] is [False] or [None], the one
    built without arguments included, never runs a pileup pass: the call
    adds no pileup to the log of the stream, it still tells and seeks
    once before the first read, and every row it returns has nine
    fields. *)
Theorem bam_without_pileup_never_runs_a_pileup_pass
        (max_records : option Z) (get_pileup : option bool) (s : stream) :
  get_pileup = None \/ get_pileup = Some false ->
  let run := BAMObject.call (BAMObject.__init__ max_records get_pileup) s in
  count_pileup (log (snd run)) = count_pileup (log s)
  /\ (exists main_pass,
        log (snd run) = log s ++ [OpTell; OpSeek (pos s)] ++ main_pass
        /\ count_pileup main_pass = 0)
  /\ match fst run with
     | Returned table =>
         Forall (fun feature_vector => length feature_vector = 9) (data table)
     | Raised _ => True
     | OutOfFuel => False
     end
  /\ BAMObject.call BAMObject.default s
     = BAMFeaturizer._featurize None false s.
Proof.
  intros Hgp run.
  assert (Hrun : run = BAMFeaturizer._featurize max_records false s)
    by (destruct Hgp as [-> | ->]; reflexivity).
  rewrite Hrun.
  assert (Hmain :
            count_pileup
              (bam_reads (pos s)
                         (length (fst (scan max_records 0 (remaining s))))
               ++ last_read (snd (scan max_records 0 (remaining s)))
               ++ closing (snd (scan max_records 0 (remaining s)))) = 0).
  { now rewrite !count_pileup_app, count_pileup_bam_reads,
      count_pileup_last_read, count_pileup_closing. }
  split; [|split; [|split]].
  - rewrite bam_featurize_log. cbn [prepass_log].
    rewrite count_pileup_app,
      (count_pileup_app [OpTell; OpSeek (pos s)]), Hmain.
    cbn. lia.
  - eexists. split; [apply bam_featurize_log|exact Hmain].
  - rewrite bam_featurize_scan.
    destruct (scan max_records 0 (remaining s)) as [rs [| |x]];
      cbn [fst]; try exact I;
      rewrite data_np_array; apply Forall_forall; intros fv Hin;
      apply in_map_iff in Hin; destruct Hin as [r [<- _]]; reflexivity.
  - reflexivity.
Qed.

Lemma bam_without_pileup_never_runs_a_pileup_pass_witness :
  (@None bool = None \/ @None bool = Some false)
  /\ count_pileup
       (log (snd (BAMObject.call (BAMObject.__init__ (Some 2%Z) None)
                    (opened [Good read1; Good read2; Good read3]))))
     = count_pileup (log (opened [Good read1; Good read2; Good read3]))
  /\ (exists main_pass,
        log (snd (BAMObject.call (BAMObject.__init__ (Some 2%Z) None)
                    (opened [Good read1; Good read2; Good read3])))
        = log (opened [Good read1; Good read2; Good read3])
          ++ [OpTell; OpSeek 0] ++ main_pass
        /\ count_pileup main_pass = 0)
  /\ match fst (BAMObject.call (BAMObject.__init__ (Some 2%Z) None)
                  (opened [Good read1; Good read2; Good read3])) with
     | Returned table =>
         Forall (fun feature_vector => length feature_vector = 9) (data table)
     | Raised _ => True
     | OutOfFuel => False
     end
  /\ BAMObject.call BAMObject.default
       (opened [Good read1; Good read2; Good read3])
     = BAMFeaturizer._featurize None false
         (opened [Good read1; Good read2; Good read3]).
Proof.
  split; [left; reflexivity|].
  apply (@bam_without_pileup_never_runs_a_pileup_pass
           (Some 2%Z) None (opened [Good read1; Good read2; Good read3])).
  left; reflexivity.
Defined.

(** Featurizers built without arguments have no cap: on a stream of
    well-formed records each returns one row per record in front of the
    cursor, in order, and the BAM one builds rows of nine fields. *)
Theorem default_featurizers_take_every_record
        (s : stream) (rs : list AlignedSegment) :
  remaining s = map (@Good _) rs ->
  fst (SAMObject.call SAMObject.default s)
  = Returned (np_array (map SAMFeaturizer.feature_vector rs))
  /\ fst (CRAMObject.call CRAMObject.default s)
     = Returned (np_array (map CRAMFeaturizer.feature_vector rs))
  /\ fst (BAMObject.call BAMObject.default s)
     = Returned (np_array (map (BAMFeaturizer.feature_vector false []) rs))
  /\ pos (snd (SAMObject.call SAMObject.default s)) = pos s + length rs.
Proof.
  intros Hrem.
  unfold SAMObject.call, CRAMObject.call, BAMObject.call,
    SAMObject.default, CRAMObject.default, BAMObject.default.
  cbn [SAMObject.__init__ CRAMObject.__init__ BAMObject.__init__
       SAMObject.max_records CRAMObject.max_records BAMObject.max_records
       BAMObject.get_pileup truthy].
  assert (Hsam : SAMFeaturizer._featurize None s
                 = (Returned (np_array (map SAMFeaturizer.feature_vector rs)),
                    logged OpClose
                      (shut (moved s (length rs)
                                   (repeat OpNext (length rs)
                                    ++ last_read Exhausted))))).
  { rewrite sam_featurize_scan, Hrem, scan_uncapped. reflexivity. }
  split; [now rewrite Hsam|]. split.
  { transitivity (fst (SAMFeaturizer._featurize None s));
      [apply f_equal, cram_featurize_sam_featurize|now rewrite Hsam]. }
  split.
  { rewrite bam_featurize_scan, Hrem, scan_uncapped. reflexivity. }
  now rewrite Hsam.
Qed.

Lemma default_featurizers_take_every_record_witness :
  remaining (opened [Good read1; Good read2; Good read3])
  = map (@Good _) [read1; read2; read3]
  /\ fst (SAMObject.call SAMObject.default
            (opened [Good read1; Good read2; Good read3]))
     = Returned (np_array (map SAMFeaturizer.feature_vector
                               [read1; read2; read3]))
  /\ fst (CRAMObject.call CRAMObject.default
            (opened [Good read1; Good read2; Good read3]))
     = Returned (np_array (map CRAMFeaturizer.feature_vector
                               [read1; read2; read3]))
  /\ fst (BAMObject.call BAMObject.default
            (opened [Good read1; Good read2; Good read3]))
     = Returned (np_array (map (BAMFeaturizer.feature_vector false [])
                               [read1; read2; read3]))
  /\ pos (snd (SAMObject.call SAMObject.default
                 (opened [Good read1; Good read2; Good read3])))
     = 0 + length [read1; read2; read3].
Proof.
  split; [reflexivity|].
  apply (@default_featurizers_take_every_record
           (opened [Good read1; Good read2; Good read3])
           [read1; read2; read3]).
  reflexivity.
Defined.
